(** * gitops: the file status classifier and the status report

    The scripts of this repository sequence calls into nodegit.  The only
    logic of their own is [fileStatus], which turns the predicates of a
    nodegit status file into a short code string, and [status], which maps a
    working-tree scan to [{path, status}] entries.

    [src/index.js] holds three versions of the script one after the other
    (lines 1-226, 228-390 and 392-575); a fourth version is
    [unnamed/part_000].  Each version declares its own [fileStatus] and
    [status]; every copy is embedded in a module of its own below. *)

From Stdlib Require Import String Ascii List Bool Arith Lia.
From stdpp Require Import base tactics option list strings.

Local Open Scope string_scope.

(** ** Data model *)

(** The object handed to [fileStatus].  The code reaches it through the
    method calls [file.path()], [file.isNew()], ..., [file.inIndex()] only;
    each predicate is used as the condition of an [if], so what matters of
    its result is its truthiness, kept here as a [bool]. *)
Record StatusFile : Type := {
  path : string;
  isNew : bool;
  isModified : bool;
  isRenamed : bool;
  isIgnored : bool;
  isDeleted : bool;
  isConflicted : bool;
  inIndex : bool
}.

(** The object literal [{ path: ..., status: ... }] built by [status]. *)
Module Entry.
Record StatusEntry : Type := { path : string; status : string }.
End Entry.
Abbreviation StatusEntry := Entry.StatusEntry.

(** An awaited promise either yields its value or rejects; an [await] of a
    rejected promise inside an [async function] rejects the function's own
    promise with the same reason. *)
Inductive promise (A : Type) : Type :=
  | Fulfilled (value : A)
  | Rejected (reason : string).
Arguments Fulfilled {A} value.
Arguments Rejected {A} reason.

Definition await {A B : Type} (p : promise A) (k : A -> promise B) : promise B :=
  match p with
  | Fulfilled value => k value
  | Rejected reason => Rejected reason
  end.

Notation "'const' x '<-' 'await' p ';' k" := (await p (fun x => k))
  (at level 10, x name, p at level 100, k at level 200,
   format "'[v' 'const'  x  '<-'  'await'  p ';' '/' k ']'").

(** Of a repository the code under study uses [repo.getStatus()] only: the
    promise of the engine's working-tree scan, an array of status files. *)
Record Repository : Type := {
  getStatus : promise (list StatusFile)
}.

(** ** The four copies of the classifier and of the report *)

(** [src/index.js], lines 53-78 and 85-88. *)
Module IndexJs1.

Definition fileStatus (file : StatusFile) : string :=
  let result := "" in
  let result := if isNew file then result +:+ "A" else result in
  let result := if isModified file then result +:+ "M" else result in
  let result := if isRenamed file then result +:+ "R" else result in
  let result := if isIgnored file then result +:+ "?" else result in
  let result := if isDeleted file then result +:+ "D" else result in
  let result := if isConflicted file then result +:+ "C" else result in
  let result := if inIndex file then result +:+ "I" else result in
  result.

Definition status (repo : Repository) : promise (list StatusEntry) :=
  const statuses <- await getStatus repo;
  Fulfilled
    (map (fun file =>
            {| Entry.path := path file; Entry.status := fileStatus file |})
         statuses).

End IndexJs1.

(** [src/index.js], lines 280-305 and 307-310. *)
Module IndexJs2.

Definition fileStatus (file : StatusFile) : string :=
  let result := "" in
  let result := if isNew file then result +:+ "A" else result in
  let result := if isModified file then result +:+ "M" else result in
  let result := if isRenamed file then result +:+ "R" else result in
  let result := if isIgnored file then result +:+ "?" else result in
  let result := if isDeleted file then result +:+ "D" else result in
  let result := if isConflicted file then result +:+ "C" else result in
  let result := if inIndex file then result +:+ "I" else result in
  result.

Definition status (repo : Repository) : promise (list StatusEntry) :=
  const statuses <- await getStatus repo;
  Fulfilled
    (map (fun file =>
            {| Entry.path := path file; Entry.status := fileStatus file |})
         statuses).

End IndexJs2.

(** [src/index.js], lines 447-472 and 474-477. *)
Module IndexJs3.

Definition fileStatus (file : StatusFile) : string :=
  let result := "" in
  let result := if isNew file then result +:+ "A" else result in
  let result := if isModified file then result +:+ "M" else result in
  let result := if isRenamed file then result +:+ "R" else result in
  let result := if isIgnored file then result +:+ "?" else result in
  let result := if isDeleted file then result +:+ "D" else result in
  let result := if isConflicted file then result +:+ "C" else result in
  let result := if inIndex file then result +:+ "I" else result in
  result.

Definition status (repo : Repository) : promise (list StatusEntry) :=
  const statuses <- await getStatus repo;
  Fulfilled
    (map (fun file =>
            {| Entry.path := path file; Entry.status := fileStatus file |})
         statuses).

End IndexJs3.

(** [unnamed/part_000], lines 53-78 and 80-83. *)
Module Part000.

Definition fileStatus (file : StatusFile) : string :=
  let result := "" in
  let result := if isNew file then result +:+ "A" else result in
  let result := if isModified file then result +:+ "M" else result in
  let result := if isRenamed file then result +:+ "R" else result in
  let result := if isIgnored file then result +:+ "?" else result in
  let result := if isDeleted file then result +:+ "D" else result in
  let result := if isConflicted file then result +:+ "C" else result in
  let result := if inIndex file then result +:+ "I" else result in
  result.

Definition status (repo : Repository) : promise (list StatusEntry) :=
  const statuses <- await getStatus repo;
  Fulfilled
    (map (fun file =>
            {| Entry.path := path file; Entry.status := fileStatus file |})
         statuses).

End Part000.

(** ** The seven predicates by name *)

(** One name per predicate method, to state properties of flags in
    general. *)
Inductive flag : Type :=
  | IsNew | IsModified | IsRenamed | IsIgnored
  | IsDeleted | IsConflicted | InIndex.

Global Instance flag_eq_dec : EqDecision flag.
Proof. solve_decision. Defined.

(** [file.isNew()], ..., [file.inIndex()]. *)
Definition test (f : flag) (file : StatusFile) : bool :=
  match f with
  | IsNew => isNew file
  | IsModified => isModified file
  | IsRenamed => isRenamed file
  | IsIgnored => isIgnored file
  | IsDeleted => isDeleted file
  | IsConflicted => isConflicted file
  | InIndex => inIndex file
  end.

(** The character the guarded statement of each predicate appends. *)
Definition code (f : flag) : ascii :=
  match f with
  | IsNew => "A"
  | IsModified => "M"
  | IsRenamed => "R"
  | IsIgnored => "?"
  | IsDeleted => "D"
  | IsConflicted => "C"
  | InIndex => "I"
  end%char.

(** The order of the [if] statements in the body of [fileStatus]. *)
Definition flag_order : list flag :=
  [IsNew; IsModified; IsRenamed; IsIgnored; IsDeleted; IsConflicted; InIndex].

(** The flags of a file that hold, in that order. *)
Definition true_flags (file : StatusFile) : list flag :=
  List.filter (fun f => test f file) flag_order.

(** [flags_le d1 d2]: every flag true in [d1] is true in [d2]. *)
Definition flags_le (d1 d2 : StatusFile) : Prop :=
  forall f : flag, implb (test f d1) (test f d2) = true.

(** Exactly the flag [f] holds of [file]. *)
Definition only_flag (f : flag) (file : StatusFile) : Prop :=
  forall g : flag, test g file = bool_decide (g = f).

(** A string as the sequence of its characters. *)
Definition chars (s : string) : list ascii := list_ascii_of_string s.

(** The classifier as the specification words it: test the flags in the
    fixed order and append one character per true flag to the (initially
    empty) result. *)
Definition status_code_spec (file : StatusFile) : string :=
  fold_left
    (fun acc f => if test f file then acc +:+ String (code f) "" else acc)
    flag_order "".

(** All status files with path [p]: one per assignment of the seven
    flags. *)
Definition all_files (p : string) : list StatusFile :=
  a ← [false; true]; m ← [false; true]; r ← [false; true];
  i ← [false; true]; d ← [false; true]; c ← [false; true];
  x ← [false; true];
  [ {| path := p; isNew := a; isModified := m; isRenamed := r;
       isIgnored := i; isDeleted := d; isConflicted := c; inIndex := x |} ].

(** ** The body of [fileStatus], statement by statement *)

(** A program point per statement of [src/index.js] lines 55-77, named by
    its line: the seven [if] statements and the [return].  ([let result = '']
    of line 54 gives the entry frame.) *)
Inductive label : Type :=
  | L55 | L58 | L62 | L65 | L68 | L71 | L74 | L77.

Record frame : Type := { pc : label; result : string }.

(** What one statement does: an [if] calls one predicate and moves on to
    the next statement, [return] ends the call with the result.  There is no
    other outcome: no statement throws and none transfers control
    elsewhere. *)
Inductive outcome : Type :=
  | Tested (f : flag) (next : frame)
  | Returned (value : string).

Definition step (file : StatusFile) (fr : frame) : outcome :=
  let result := result fr in
  match pc fr with
  | L55 => Tested IsNew
      {| pc := L58; result := if isNew file then result +:+ "A" else result |}
  | L58 => Tested IsModified
      {| pc := L62; result := if isModified file then result +:+ "M" else result |}
  | L62 => Tested IsRenamed
      {| pc := L65; result := if isRenamed file then result +:+ "R" else result |}
  | L65 => Tested IsIgnored
      {| pc := L68; result := if isIgnored file then result +:+ "?" else result |}
  | L68 => Tested IsDeleted
      {| pc := L71; result := if isDeleted file then result +:+ "D" else result |}
  | L71 => Tested IsConflicted
      {| pc := L74; result := if isConflicted file then result +:+ "C" else result |}
  | L74 => Tested InIndex
      {| pc := L77; result := if inIndex file then result +:+ "I" else result |}
  | L77 => Returned result
  end.

(** Runs at most [fuel] statements; yields the predicates called so far and
    the returned value, if the [return] was reached. *)
Fixpoint run (fuel : nat) (file : StatusFile) (fr : frame)
  : list flag * option string :=
  match fuel with
  | 0 => ([], None)
  | S fuel =>
      match step file fr with
      | Tested f next =>
          let '(called, value) := run fuel file next in (f :: called, value)
      | Returned value => ([], Some value)
      end
  end.

(** A call [fileStatus(file)]: the body run from line 55 with the fresh
    [result = '']. *)
Definition call_fileStatus (fuel : nat) (file : StatusFile)
  : list flag * option string :=
  run fuel file {| pc := L55; result := "" |}.

(** ** Printing the report *)

(** The template literal [`${status} ${path}`] of the print loop. *)
Definition status_line (e : StatusEntry) : string :=
  Entry.status e +:+ " " +:+ Entry.path e.


(** ** nodegit, as far as [createTag], [createBranch] and [cloneRepo] use it *)

(** [nodegit.Cred.userpassPlaintextNew(username, password)], kept as the
    call it is; an argument is [None] when it is [undefined]. *)
Inductive Cred : Type :=
  | userpassPlaintextNew (username password : option string).

(** The object literal [{ fetchOpts: { callbacks: { ... } } }] handed to
    [nodegit.Clone].  [credentials] is a callback or [null] ([None]);
    [transferProgress] writes to the console. *)
Record Callbacks (Progress : Type) : Type := {
  certificateCheck : unit -> Z;
  credentials : option (unit -> Cred);
  transferProgress : Progress -> list string -> list string
}.
Arguments certificateCheck {Progress} _.
Arguments credentials {Progress} _.
Arguments transferProgress {Progress} _.

Record FetchOptions (Progress : Type) : Type := {
  callbacks : Callbacks Progress
}.
Arguments callbacks {Progress} _.

Record CloneOptions (Progress : Type) : Type := {
  fetchOpts : FetchOptions Progress
}.
Arguments fetchOpts {Progress} _.

(** The engine is not part of the repository: its types and the calls the
    scripts make are parameters.  A call acts on the state of the engine
    ([World]) and yields a promise; [Oid_fromString] is synchronous and
    either returns or throws, and a throw inside an [async function]
    rejects that function's promise.  [Oid] is the type of the values other
    than strings that name a commit (an [Oid] by the documentation of
    [createTag] and [createBranch]).  [inspect_Tag] and [inspect_Progress]
    are the renderings [console.log] gives to such objects. *)
Class Engine : Type := {
  Oid : Type;
  Tag : Type;
  Reference : Type;
  Progress : Type;
  Repo : Type;
  World : Type;
  Oid_fromString : string -> promise Oid;
  repo_createTag :
    Repo -> string + Oid -> string -> string -> World -> promise Tag * World;
  repo_createBranch :
    Repo -> string -> string + Oid -> Z -> World -> promise Reference * World;
  Clone :
    string -> string -> CloneOptions Progress ->
    World * list string -> promise Repo * (World * list string);
  inspect_Tag : Tag -> string;
  inspect_Progress : Progress -> string
}.

(** What an [async function] of the scripts acts on: the engine and the
    console. *)
Record state `{Engine} : Type := { world : World; console : list string }.

(** [let oid; if (typeof commit === 'string') { oid = nodegit.Oid.fromString(commit) }]
    followed by the expression [oid || commit]: a string is parsed, any
    other value is passed on as it is.  An [Oid] object is truthy. *)
Definition oid_or_commit `{Engine} (commit : string + Oid)
  : promise (string + Oid) :=
  let oid : promise (option Oid) :=
    match commit with
    | inl hex =>
        match Oid_fromString hex with
        | Fulfilled o => Fulfilled (Some o)
        | Rejected reason => Rejected reason
        end
    | inr _ => Fulfilled None
    end in
  match oid with
  | Fulfilled (Some o) => Fulfilled (inr o)
  | Fulfilled None => Fulfilled commit
  | Rejected reason => Rejected reason
  end.

(** [src/index.js] lines 97-104. *)
Definition createTag `{Engine} (repo : Repo) (commit : string + Oid)
    (tagName tagMessage : string) (st : state) : promise unit * state :=
  match oid_or_commit commit with
  | Rejected reason => (Rejected reason, st)
  | Fulfilled target =>
      match repo_createTag repo target tagName tagMessage (world st) with
      | (Fulfilled tag, w) =>
          (Fulfilled tt,
           {| world := w;
              console := (console st ++ ["TAG: " +:+ inspect_Tag tag])%list |})
      | (Rejected reason, w) =>
          (Rejected reason, {| world := w; console := console st |})
      end
  end.

(** [src/index.js] lines 312-316 (the same text again at 479-483): the
    earlier [createTag], which takes the commit id as a string only. *)
Module Tags2.
Definition createTag `{Engine} (repo : Repo) (commitId : string)
    (tagName tagMessage : string) (st : state) : promise unit * state :=
  match Oid_fromString commitId with
  | Rejected reason => (Rejected reason, st)
  | Fulfilled oid =>
      match repo_createTag repo (inr oid) tagName tagMessage (world st) with
      | (Fulfilled tag, w) =>
          (Fulfilled tt,
           {| world := w;
              console := (console st ++ ["TAG: " +:+ inspect_Tag tag])%list |})
      | (Rejected reason, w) =>
          (Rejected reason, {| world := w; console := console st |})
      end
  end.
End Tags2.

(** [src/index.js] lines 113-120. *)
Definition createBranch `{Engine} (repo : Repo) (name : string)
    (commit : string + Oid) (st : state) : promise Reference * state :=
  match oid_or_commit commit with
  | Rejected reason => (Rejected reason, st)
  | Fulfilled target =>
      let '(ref, w) := repo_createBranch repo name target 0%Z (world st) in
      (ref, {| world := w; console := console st |})
  end.

(** Truthiness of an optional string argument: [undefined] and [''] are
    falsy, every other string is truthy. *)
Definition truthy (v : option string) : bool :=
  match v with
  | Some s => negb (String.eqb s "")
  | None => false
  end.

(** The options object of [cloneRepo], [src/index.js] lines 150-159 (the
    same text again at 546-555). *)
Definition cloneRepo_options `{Engine} (username password : option string)
  : CloneOptions Progress :=
  {| fetchOpts := {| callbacks := {|
       certificateCheck := fun _ => 0%Z;
       credentials :=
         if truthy username && truthy password
         then Some (fun _ => userpassPlaintextNew username password)
         else None;
       transferProgress := fun progress console =>
         (console ++ ["clone progress: " +:+ inspect_Progress progress])%list
     |} |} |}.

(** [src/index.js] lines 149-160. *)
Definition cloneRepo `{Engine} (url path : string)
    (username password : option string) (st : state) : promise Repo * state :=
  let '(repo, (w, out)) :=
    Clone url path (cloneRepo_options username password)
          (world st, console st) in
  (repo, {| world := w; console := out |}).

(** An engine to run these functions on: an object id is a string of 40
    characters, a tag is the pair of its name and target, the world is the
    list of the tags made so far (a tag name is taken once) and of the
    branches, which an overwriting call may replace. *)
Definition list_engine : Engine := {|
  Oid := string;
  Tag := string * string;
  Reference := string * string;
  Progress := nat;
  Repo := unit;
  World := list (string * string);
  Oid_fromString := fun hex =>
    if Nat.eqb (String.length hex) 40 then Fulfilled hex
    else Rejected "unable to parse OID";
  repo_createTag := fun _ target tagName _ w =>
    let oid := match target with inl s => s | inr o => o end in
    if existsb (fun t => String.eqb (fst t) tagName) w
    then (Rejected "tag already exists", w)
    else (Fulfilled (tagName, oid), (tagName, oid) :: w);
  repo_createBranch := fun _ name target force w =>
    let oid := match target with inl s => s | inr o => o end in
    if existsb (fun t => String.eqb (fst t) name) w && Z.eqb force 0
    then (Rejected "a reference with that name already exists", w)
    else (Fulfilled (name, oid), (name, oid) :: w);
  Clone := fun url _ opts st =>
    let out := transferProgress (callbacks (fetchOpts opts)) 100 (snd st) in
    match credentials (callbacks (fetchOpts opts)) with
    | Some _ => (Fulfilled tt, (fst st, out))
    | None => (Rejected "authentication required", (fst st, out))
    end;
  inspect_Tag := fun t => fst t;
  inspect_Progress := fun _ => "[object]"
|}.

(** ** The classifier and the report over objects *)

(** [fileStatus] and [status] once more, this time over what JavaScript
    hands them: objects whose methods are calls.  A call returns a value or
    throws, and may change the state of the program on the way; a throw
    anywhere in a function body ends the function with that throw (for an
    [async function]: rejects its promise).  [src/index.js] lines 53-78 and
    85-88. *)
Module Js.

(** The values a predicate method may return, as far as the condition of
    an [if] tells them apart.  The numbers are the integers, which is what
    the engine's bit tests yield. *)
Inductive value : Type :=
  | Undefined
  | Boolean (b : bool)
  | Number (n : Z)
  | Str (s : string).

(** The conversion the condition of an [if] applies. *)
Definition ToBoolean (v : value) : bool :=
  match v with
  | Undefined => false
  | Boolean b => b
  | Number n => negb (Z.eqb n 0)
  | Str s => negb (String.eqb s "")
  end.

Inductive completion (A : Type) : Type :=
  | Normal (a : A)
  | Throw (reason : string).
Arguments Normal {A} a.
Arguments Throw {A} reason.

(** A computation over the program state [S]. *)
Definition js (S A : Type) : Type := S -> completion A * S.

Definition ret {S A : Type} (a : A) : js S A := fun st => (Normal a, st).

Definition bind {S A B : Type} (m : js S A) (k : A -> js S B) : js S B :=
  fun st =>
    match m st with
    | (Normal a, st') => k a st'
    | (Throw reason, st') => (Throw reason, st')
    end.

Notation "'call' x '<-' m ';' k" := (bind m (fun x => k))
  (at level 10, x name, m at level 100, k at level 200,
   format "'[v' 'call'  x  '<-'  m ';' '/' k ']'").

(** A status file as an object: [file.path()], [file.isNew()], ... *)
Record FileObject (S : Type) : Type := {
  path : js S string;
  isNew : js S value;
  isModified : js S value;
  isRenamed : js S value;
  isIgnored : js S value;
  isDeleted : js S value;
  isConflicted : js S value;
  inIndex : js S value
}.
Arguments path {S} _.
Arguments isNew {S} _.
Arguments isModified {S} _.
Arguments isRenamed {S} _.
Arguments isIgnored {S} _.
Arguments isDeleted {S} _.
Arguments isConflicted {S} _.
Arguments inIndex {S} _.

Definition fileStatus {S : Type} (file : FileObject S) : js S string :=
  let result := "" in
  call v <- isNew file;
  let result := if ToBoolean v then result +:+ "A" else result in
  call v <- isModified file;
  let result := if ToBoolean v then result +:+ "M" else result in
  call v <- isRenamed file;
  let result := if ToBoolean v then result +:+ "R" else result in
  call v <- isIgnored file;
  let result := if ToBoolean v then result +:+ "?" else result in
  call v <- isDeleted file;
  let result := if ToBoolean v then result +:+ "D" else result in
  call v <- isConflicted file;
  let result := if ToBoolean v then result +:+ "C" else result in
  call v <- inIndex file;
  let result := if ToBoolean v then result +:+ "I" else result in
  ret result.

(** [array.map(callback)]: the callback is called on the elements in index
    order, and a throw of the callback ends the whole [map]. *)
Fixpoint array_map {S A B : Type} (callback : A -> js S B) (array : list A)
  : js S (list B) :=
  match array with
  | [] => ret []
  | x :: rest =>
      call y <- callback x;
      call ys <- array_map callback rest;
      ret (y :: ys)
  end.

(** [repo.getStatus()], awaited: a rejection is a throw at the [await]. *)
Record RepoObject (S : Type) : Type := {
  getStatus : js S (list (FileObject S))
}.
Arguments getStatus {S} _.

(** The properties of the object literal are evaluated in the order they
    are written: [file.path()] first, then [fileStatus(file)]. *)
Definition status {S : Type} (repo : RepoObject S) : js S (list StatusEntry) :=
  call statuses <- getStatus repo;
  array_map
    (fun file =>
       call p <- path file;
       call s <- fileStatus file;
       ret {| Entry.path := p; Entry.status := s |})
    statuses.

(** The method behind each predicate name. *)
Definition method {S : Type} (f : flag) (file : FileObject S) : js S value :=
  match f with
  | IsNew => isNew file
  | IsModified => isModified file
  | IsRenamed => isRenamed file
  | IsIgnored => isIgnored file
  | IsDeleted => isDeleted file
  | IsConflicted => isConflicted file
  | InIndex => inIndex file
  end.

End Js.

(** The object [o] carries the descriptor [d]: each predicate method
    returns, in every program state, a value whose truthiness is the flag
    of [d], without throwing and without changing the state. *)
Definition represents {S : Type} (o : Js.FileObject S) (d : StatusFile) : Prop :=
  forall (f : flag) (st : S),
    exists v : Js.value,
      Js.method f o st = (Js.Normal v, st) /\ Js.ToBoolean v = test f d.

(** ... and so does [o.path()], with the path of [d]. *)
Definition represents_file {S : Type} (o : Js.FileObject S) (d : StatusFile)
  : Prop :=
  (forall st : S, Js.path o st = (Js.Normal (path d), st)) /\ represents o d.

(** The plain object of a descriptor: its methods return the fields. *)
Definition object_of {S : Type} (d : StatusFile) : Js.FileObject S :=
  {| Js.path := Js.ret (path d);
     Js.isNew := Js.ret (Js.Boolean (isNew d));
     Js.isModified := Js.ret (Js.Boolean (isModified d));
     Js.isRenamed := Js.ret (Js.Boolean (isRenamed d));
     Js.isIgnored := Js.ret (Js.Boolean (isIgnored d));
     Js.isDeleted := Js.ret (Js.Boolean (isDeleted d));
     Js.isConflicted := Js.ret (Js.Boolean (isConflicted d));
     Js.inIndex := Js.ret (Js.Boolean (inIndex d)) |}.

(** An object whose predicates return numbers, as a test of status bits
    does: [0] when the flag is off and a bit when it is on. *)
Definition bits_object {S : Type} (d : StatusFile) : Js.FileObject S :=
  let bit (b : bool) (n : Z) := Js.ret (Js.Number (if b then n else 0%Z)) in
  {| Js.path := Js.ret (path d);
     Js.isNew := bit (isNew d) 128%Z;
     Js.isModified := bit (isModified d) 256%Z;
     Js.isRenamed := bit (isRenamed d) 2048%Z;
     Js.isIgnored := bit (isIgnored d) 16384%Z;
     Js.isDeleted := bit (isDeleted d) 512%Z;
     Js.isConflicted := bit (isConflicted d) 32768%Z;
     Js.inIndex := bit (inIndex d) 1%Z |}.

(** An object whose [isDeleted] throws, and one whose [isNew] reads a
    program state that is a boolean. *)
Definition throwing_object {S : Type} (d : StatusFile) : Js.FileObject S :=
  {| Js.path := Js.ret (path d);
     Js.isNew := Js.ret (Js.Boolean (isNew d));
     Js.isModified := Js.ret (Js.Boolean (isModified d));
     Js.isRenamed := Js.ret (Js.Boolean (isRenamed d));
     Js.isIgnored := Js.ret (Js.Boolean (isIgnored d));
     Js.isDeleted := fun st => (Js.Throw "isDeleted failed", st);
     Js.isConflicted := Js.ret (Js.Boolean (isConflicted d));
     Js.inIndex := Js.ret (Js.Boolean (inIndex d)) |}.

Definition state_reading_object (d : StatusFile) : Js.FileObject bool :=
  {| Js.path := Js.ret (path d);
     Js.isNew := fun st => (Js.Normal (Js.Boolean st), st);
     Js.isModified := Js.ret (Js.Boolean (isModified d));
     Js.isRenamed := Js.ret (Js.Boolean (isRenamed d));
     Js.isIgnored := Js.ret (Js.Boolean (isIgnored d));
     Js.isDeleted := Js.ret (Js.Boolean (isDeleted d));
     Js.isConflicted := Js.ret (Js.Boolean (isConflicted d));
     Js.inIndex := Js.ret (Js.Boolean (inIndex d)) |}.

(** What monotonicity asks of a classifier at two status files. *)
Definition monotone_at (classify : StatusFile -> string)
    (d1 d2 : StatusFile) : Prop :=
  (flags_le d1 d2 -> chars (classify d1) `sublist_of` chars (classify d2))
  /\ chars (classify d2) `sublist_of` chars "AMR?DCI"
  /\ NoDup (chars (classify d2))
  /\ String.length (classify d2) = length (true_flags d2).

(** ** Worked examples *)

Example fileStatus_staged_new :
  IndexJs1.fileStatus
    {| path := "src/index.js"; isNew := true; isModified := false;
       isRenamed := false; isIgnored := false; isDeleted := false;
       isConflicted := false; inIndex := true |} = "AI".
Proof. reflexivity. Qed.

Example call_fileStatus_staged_new :
  call_fileStatus 8
    {| path := "src/index.js"; isNew := true; isModified := false;
       isRenamed := false; isIgnored := false; isDeleted := false;
       isConflicted := false; inIndex := true |} = (flag_order, Some "AI").
Proof. reflexivity. Qed.

Example all_files_count : length (all_files "a") = 128.
Proof. reflexivity. Qed.

(** ** Auxiliary facts *)

Lemma chars_length (s : string) : length (chars s) = String.length s.
Proof. unfold chars. induction s as [|a s IH]; cbn; congruence. Qed.

Lemma chars_inj (s t : string) : chars s = chars t -> s = t.
Proof.
  unfold chars. intros H.
  rewrite <- (string_of_list_ascii_of_string s), <- (string_of_list_ascii_of_string t).
  by rewrite H.
Qed.

(** Filtering by a weaker predicate keeps at least the same elements, in
    the same order. *)
Lemma filter_sublist_mono {A : Type} (p q : A -> bool) (l : list A) :
  (forall x, implb (p x) (q x) = true) ->
  List.filter p l `sublist_of` List.filter q l.
Proof.
  intros Hpq. induction l as [|x l IH]; cbn; [constructor|].
  specialize (Hpq x).
  destruct (p x), (q x); try discriminate;
    [by apply sublist_skip | by apply sublist_cons | exact IH].
Qed.

Lemma filter_sublist {A : Type} (p : A -> bool) (l : list A) :
  List.filter p l `sublist_of` l.
Proof.
  induction l as [|x l IH]; cbn; [constructor|].
  destruct (p x); [by apply sublist_skip | by apply sublist_cons].
Qed.

(** The result of the classifier, character by character: the codes of the
    flags that hold, in the order of the [if] statements. *)
Lemma fileStatus_chars (file : StatusFile) :
  chars (IndexJs1.fileStatus file) = map code (true_flags file).
Proof.
  destruct file as [p [] [] [] [] [] [] []]; reflexivity.
Qed.

(** The step machine agrees with the function: eight statements are run,
    the seven predicates are called in the order of the text, and the value
    returned is that of [fileStatus]. *)
Lemma call_fileStatus_enough (file : StatusFile) (n : nat) :
  call_fileStatus (8 + n) file = (flag_order, Some (IndexJs1.fileStatus file)).
Proof. reflexivity. Qed.

Lemma code_inj : Inj (=) (=) code.
Proof. intros [] [] H; try reflexivity; discriminate H. Qed.

Lemma flag_order_NoDup : NoDup flag_order.
Proof. unfold flag_order. compute_done. Qed.

Lemma only_flag_true_flags (f : flag) (file : StatusFile) :
  only_flag f file -> true_flags file = [f].
Proof.
  intros H. unfold true_flags, flag_order, List.filter.
  rewrite !H. by destruct f.
Qed.

(** ** The classifier *)

(** C1. For every status file, [fileStatus] returns the string obtained by
    testing the flags in the fixed order isNew, isModified, isRenamed,
    isIgnored, isDeleted, isConflicted, inIndex and appending, for each
    flag that is true, its character 'A', 'M', 'R', '?', 'D', 'C', 'I':
    the function equals the specification's fold over the ordered flag
    table, and the statements of its body call the seven predicates in
    exactly that order before returning that string. *)
Theorem fileStatus_spec (file : StatusFile) :
  IndexJs1.fileStatus file = status_code_spec file
  /\ forall n : nat,
       call_fileStatus (8 + n) file = (flag_order, Some (status_code_spec file)).
Proof.
  assert (E : IndexJs1.fileStatus file = status_code_spec file).
  { destruct file as [p a m r i d c x].
    unfold status_code_spec, flag_order, IndexJs1.fileStatus. cbn.
    by destruct a, m, r, i, d, c, x. }
  split; [exact E|].
  intros n. rewrite <- E. apply call_fileStatus_enough.
Qed.

(** C4. For the status file in which all seven flags are true, whatever
    its path, [fileStatus] returns exactly ["AMR?DCI"]. *)
Theorem fileStatus_all_flags (p : string) :
  IndexJs1.fileStatus
    {| path := p; isNew := true; isModified := true; isRenamed := true;
       isIgnored := true; isDeleted := true; isConflicted := true;
       inIndex := true |} = "AMR?DCI".
Proof. reflexivity. Qed.

(** C5. For the status file with isNew, isModified and inIndex true and
    the other four flags false, whatever its path, [fileStatus] returns
    exactly ["AMI"]: the characters come in the order of the tests, not in
    alphabetical order. *)
Theorem fileStatus_new_modified_staged (p : string) :
  IndexJs1.fileStatus
    {| path := p; isNew := true; isModified := true; isRenamed := false;
       isIgnored := false; isDeleted := false; isConflicted := false;
       inIndex := true |} = "AMI".
Proof. reflexivity. Qed.

(** C6. For every status file in which exactly one flag [f] is true,
    [fileStatus] returns the one-character string made of the code of [f]
    ('A' for isNew, 'M' for isModified, 'R' for isRenamed, '?' for
    isIgnored, 'D' for isDeleted, 'C' for isConflicted, 'I' for inIndex). *)
Theorem fileStatus_single_flag (f : flag) (file : StatusFile) :
  only_flag f file ->
  IndexJs1.fileStatus file = String (code f) ""
  /\ String.length (IndexJs1.fileStatus file) = 1.
Proof.
  intros H.
  assert (E : IndexJs1.fileStatus file = String (code f) "").
  { apply chars_inj. rewrite fileStatus_chars, (only_flag_true_flags f file H).
    reflexivity. }
  split; [exact E | by rewrite E].
Qed.

Lemma fileStatus_single_flag_witness :
  only_flag IsIgnored
    {| path := "node_modules"; isNew := false; isModified := false;
       isRenamed := false; isIgnored := true; isDeleted := false;
       isConflicted := false; inIndex := false |}
  /\ IndexJs1.fileStatus
       {| path := "node_modules"; isNew := false; isModified := false;
          isRenamed := false; isIgnored := true; isDeleted := false;
          isConflicted := false; inIndex := false |} = "?".
Proof.
  split.
  - intros g. destruct g; reflexivity.
  - apply (fileStatus_single_flag IsIgnored). intros g. destruct g; reflexivity.
Defined.

(** C7. For every status file in which all seven flags are false,
    [fileStatus] returns the empty string. *)
Theorem fileStatus_no_flags (file : StatusFile) :
  (forall f : flag, test f file = false) ->
  IndexJs1.fileStatus file = "".
Proof.
  intros H. apply chars_inj. rewrite fileStatus_chars.
  unfold true_flags, flag_order, List.filter. by rewrite !H.
Qed.

Lemma fileStatus_no_flags_witness :
  IndexJs1.fileStatus
    {| path := "README.md"; isNew := false; isModified := false;
       isRenamed := false; isIgnored := false; isDeleted := false;
       isConflicted := false; inIndex := false |} = "".
Proof.
  apply fileStatus_no_flags. intros f. destruct f; reflexivity.
Defined.

(** C3. All copies of the classifier in the sources (three in
    [src/index.js], one in [unnamed/part_000]) are extensionally equal:
    for every status file each copy returns the same string. *)
Theorem fileStatus_copies_agree (file : StatusFile) :
  IndexJs2.fileStatus file = IndexJs1.fileStatus file
  /\ IndexJs3.fileStatus file = IndexJs1.fileStatus file
  /\ Part000.fileStatus file = IndexJs1.fileStatus file.
Proof. repeat split. Qed.

(** The result depends on the seven flags only (not on the path, and on
    nothing outside the argument). *)
Lemma fileStatus_flags_only (d1 d2 : StatusFile) :
  (forall f : flag, test f d1 = test f d2) ->
  IndexJs1.fileStatus d1 = IndexJs1.fileStatus d2.
Proof.
  intros H. unfold IndexJs1.fileStatus.
  pose proof (H IsNew) as Ha. pose proof (H IsModified) as Hm.
  pose proof (H IsRenamed) as Hr. pose proof (H IsIgnored) as Hi.
  pose proof (H IsDeleted) as Hd. pose proof (H IsConflicted) as Hc.
  pose proof (H InIndex) as Hx. cbn in Ha, Hm, Hr, Hi, Hd, Hc, Hx.
  by rewrite Ha, Hm, Hr, Hi, Hd, Hc, Hx.
Qed.

Lemma all_files_complete (file : StatusFile) : file ∈ all_files (path file).
Proof.
  destruct file as [p a m r i d c x]. cbn [path].
  apply list_elem_of_In.
  destruct a, m, r, i, d, c, x; cbv; tauto.
Qed.

Lemma fileStatus_length_le (file : StatusFile) :
  String.length (IndexJs1.fileStatus file) <= 7.
Proof.
  rewrite <- chars_length, fileStatus_chars, length_map.
  change 7 with (length flag_order).
  apply sublist_length, filter_sublist.
Qed.

(** *** Over objects *)

Lemma object_of_represents {S : Type} (d : StatusFile) :
  represents_file (object_of (S:=S) d) d.
Proof.
  split; [reflexivity|]. intros f st. destruct f; eexists; split; reflexivity.
Qed.

Lemma bits_object_represents {S : Type} (d : StatusFile) :
  represents_file (bits_object (S:=S) d) d.
Proof.
  split; [reflexivity|]. destruct d as [p a m r i x c y].
  intros f st. destruct f; eexists; (split; [reflexivity|]); cbn;
    by destruct a, m, r, i, x, c, y.
Qed.

(** On an object that carries a descriptor the call returns, with the
    string of the descriptor, and leaves the program state as it was. *)
Lemma fileStatus_of_descriptor {S : Type} (o : Js.FileObject S)
    (d : StatusFile) :
  represents o d ->
  forall st : S, Js.fileStatus o st = (Js.Normal (IndexJs1.fileStatus d), st).
Proof.
  intros H st.
  destruct (H IsNew st) as (v1 & E1 & T1).
  destruct (H IsModified st) as (v2 & E2 & T2).
  destruct (H IsRenamed st) as (v3 & E3 & T3).
  destruct (H IsIgnored st) as (v4 & E4 & T4).
  destruct (H IsDeleted st) as (v5 & E5 & T5).
  destruct (H IsConflicted st) as (v6 & E6 & T6).
  destruct (H InIndex st) as (v7 & E7 & T7).
  cbn [Js.method test] in *.
  unfold Js.fileStatus, Js.bind, Js.ret, IndexJs1.fileStatus.
  rewrite E1, E2, E3, E4, E5, E6, E7, T1, T2, T3, T4, T5, T6, T7.
  reflexivity.
Qed.

(** The model can tell a classifier that fails or depends on the program
    state from one that does not: a throwing predicate makes the call
    throw, and a predicate that reads the state makes the result vary. *)
Example fileStatus_throws :
  Js.fileStatus
    (throwing_object
       {| path := "a.txt"; isNew := true; isModified := false;
          isRenamed := false; isIgnored := false; isDeleted := true;
          isConflicted := false; inIndex := false |}) 0
  = (Js.Throw "isDeleted failed", 0).
Proof. reflexivity. Qed.

Example fileStatus_reads_state :
  let o := state_reading_object
             {| path := "a.txt"; isNew := true; isModified := true;
                isRenamed := false; isIgnored := false; isDeleted := false;
                isConflicted := false; inIndex := false |} in
  fst (Js.fileStatus o true) = Js.Normal "AM"
  /\ fst (Js.fileStatus o false) = Js.Normal "M".
Proof. split; reflexivity. Qed.

(** C8. [fileStatus] is total over all 2^7 flag combinations: the status
    files of a given path are exactly the 128 flag assignments, and on an
    object that carries any of them the call, started in any program state,
    completes normally with a string -- it does not throw -- and leaves the
    program state as it found it. *)
Theorem fileStatus_total {S : Type} (o : Js.FileObject S) (file : StatusFile) :
  represents o file ->
  file ∈ all_files (path file)
  /\ length (all_files (path file)) = 2 ^ 7
  /\ forall st : S,
       Js.fileStatus o st = (Js.Normal (IndexJs1.fileStatus file), st).
Proof.
  intros H.
  split; [apply all_files_complete|].
  split; [reflexivity|].
  by apply fileStatus_of_descriptor.
Qed.

Lemma fileStatus_total_witness :
  Js.fileStatus
    (bits_object
       {| path := "src/index.js"; isNew := true; isModified := false;
          isRenamed := false; isIgnored := false; isDeleted := false;
          isConflicted := false; inIndex := true |})
    ["$ node index.js"]
  = (Js.Normal "AI", ["$ node index.js"]).
Proof.
  apply (fileStatus_total
           (bits_object
              {| path := "src/index.js"; isNew := true; isModified := false;
                 isRenamed := false; isIgnored := false; isDeleted := false;
                 isConflicted := false; inIndex := true |})
           {| path := "src/index.js"; isNew := true; isModified := false;
              isRenamed := false; isIgnored := false; isDeleted := false;
              isConflicted := false; inIndex := true |}).
  intros f st. destruct f; eexists; split; reflexivity.
Defined.

(** C9. [fileStatus] is deterministic: applied to objects that carry
    equal descriptors it returns identical strings, whatever the program
    states the two calls start in, and classifying the same object twice in
    a row returns the same string both times.  The result depends on no
    state outside the descriptor. *)
Theorem fileStatus_deterministic {S : Type} (o1 o2 : Js.FileObject S)
    (d1 d2 : StatusFile) :
  represents o1 d1 -> represents o2 d2 -> d1 = d2 ->
  forall st1 st2 : S,
    fst (Js.fileStatus o1 st1) = fst (Js.fileStatus o2 st2)
    /\ exists s : string,
         Js.bind (Js.fileStatus o1)
           (fun first =>
              Js.bind (Js.fileStatus o1)
                (fun second => Js.ret (first, second))) st1
         = (Js.Normal (s, s), st1).
Proof.
  intros H1 H2 <- st1 st2.
  pose proof (fileStatus_of_descriptor o1 d1 H1) as E1.
  pose proof (fileStatus_of_descriptor o2 d1 H2) as E2.
  split.
  - by rewrite E1, E2.
  - exists (IndexJs1.fileStatus d1). unfold Js.bind. by rewrite !E1.
Qed.

Lemma fileStatus_deterministic_witness :
  fst (Js.fileStatus
         (object_of
            {| path := "src/index.js"; isNew := true; isModified := false;
               isRenamed := false; isIgnored := false; isDeleted := false;
               isConflicted := false; inIndex := true |})
         ["first run"])
  = fst (Js.fileStatus
           (bits_object
              {| path := "src/index.js"; isNew := true; isModified := false;
                 isRenamed := false; isIgnored := false; isDeleted := false;
                 isConflicted := false; inIndex := true |})
           ["second run"; "later"]).
Proof.
  apply (fileStatus_deterministic _ _
           {| path := "src/index.js"; isNew := true; isModified := false;
              isRenamed := false; isIgnored := false; isDeleted := false;
              isConflicted := false; inIndex := true |}
           {| path := "src/index.js"; isNew := true; isModified := false;
              isRenamed := false; isIgnored := false; isDeleted := false;
              isConflicted := false; inIndex := true |}).
  - intros f st. destruct f; eexists; split; reflexivity.
  - intros f st. destruct f; eexists; split; reflexivity.
  - reflexivity.
Defined.

Lemma Part000_fileStatus_chars (file : StatusFile) :
  chars (Part000.fileStatus file) = map code (true_flags file).
Proof.
  destruct file as [p [] [] [] [] [] [] []]; reflexivity.
Qed.

(** Monotonicity for any classifier whose result is, character by
    character, the codes of the true flags in the order of the tests. *)
Lemma monotone_at_of_chars (classify : StatusFile -> string) :
  (forall file, chars (classify file) = map code (true_flags file)) ->
  forall d1 d2, monotone_at classify d1 d2.
Proof.
  intros Hc d1 d2. unfold monotone_at.
  assert (Hall : chars (classify d2) `sublist_of` chars "AMR?DCI").
  { rewrite Hc.
    change (chars "AMR?DCI") with (code <$> flag_order).
    change (map code (true_flags d2)) with (code <$> true_flags d2).
    apply fmap_sublist, filter_sublist. }
  split; [|split; [exact Hall|split]].
  - intros Hle. rewrite !Hc.
    change (map code (true_flags d1)) with (code <$> true_flags d1).
    change (map code (true_flags d2)) with (code <$> true_flags d2).
    apply fmap_sublist, filter_sublist_mono. exact Hle.
  - apply (sublist_NoDup _ (chars "AMR?DCI")); [|exact Hall].
    change (chars "AMR?DCI") with (code <$> flag_order).
    apply (@NoDup_fmap_2 _ _ code code_inj), flag_order_NoDup.
  - by rewrite <- chars_length, Hc, length_map.
Qed.

(** C10. [fileStatus] is monotone in the flags: if every flag true in
    [d1] is true in [d2], the result for [d1] is a subsequence of the
    result for [d2].  For every status file the result is a subsequence of
    ["AMR?DCI"], no character occurs twice in it, and its length is the
    number of true flags.  This holds of the copy of [src/index.js] and of
    the copy of [unnamed/part_000]. *)
Theorem fileStatus_monotone (d1 d2 : StatusFile) :
  ((flags_le d1 d2 ->
    chars (IndexJs1.fileStatus d1) `sublist_of` chars (IndexJs1.fileStatus d2))
   /\ chars (IndexJs1.fileStatus d2) `sublist_of` chars "AMR?DCI"
   /\ NoDup (chars (IndexJs1.fileStatus d2))
   /\ String.length (IndexJs1.fileStatus d2) = length (true_flags d2))
  /\ ((flags_le d1 d2 ->
       chars (Part000.fileStatus d1) `sublist_of` chars (Part000.fileStatus d2))
      /\ chars (Part000.fileStatus d2) `sublist_of` chars "AMR?DCI"
      /\ NoDup (chars (Part000.fileStatus d2))
      /\ String.length (Part000.fileStatus d2) = length (true_flags d2)).
Proof.
  split.
  - apply (monotone_at_of_chars IndexJs1.fileStatus fileStatus_chars).
  - apply (monotone_at_of_chars Part000.fileStatus Part000_fileStatus_chars).
Qed.

Lemma fileStatus_monotone_witness :
  flags_le
    {| path := "a.txt"; isNew := false; isModified := true;
       isRenamed := false; isIgnored := false; isDeleted := false;
       isConflicted := false; inIndex := true |}
    {| path := "a.txt"; isNew := false; isModified := true;
       isRenamed := true; isIgnored := false; isDeleted := false;
       isConflicted := true; inIndex := true |}
  /\ chars "MI" `sublist_of` chars "MRCI"
  /\ chars (Part000.fileStatus
              {| path := "a.txt"; isNew := false; isModified := true;
                 isRenamed := false; isIgnored := false; isDeleted := false;
                 isConflicted := false; inIndex := true |})
     `sublist_of` chars "MRCI".
Proof.
  destruct (fileStatus_monotone
              {| path := "a.txt"; isNew := false; isModified := true;
                 isRenamed := false; isIgnored := false; isDeleted := false;
                 isConflicted := false; inIndex := true |}
              {| path := "a.txt"; isNew := false; isModified := true;
                 isRenamed := true; isIgnored := false; isDeleted := false;
                 isConflicted := true; inIndex := true |})
    as [[H1 _] [H2 _]].
  assert (Hle : flags_le
    {| path := "a.txt"; isNew := false; isModified := true;
       isRenamed := false; isIgnored := false; isDeleted := false;
       isConflicted := false; inIndex := true |}
    {| path := "a.txt"; isNew := false; isModified := true;
       isRenamed := true; isIgnored := false; isDeleted := false;
       isConflicted := true; inIndex := true |}).
  { intros f. destruct f; reflexivity. }
  split; [exact Hle|]. split; [exact (H1 Hle) | exact (H2 Hle)].
Defined.

(** ** The status report *)

(** C2. For every sequence of status files [f1; ...; fn] produced by the
    engine's scan, [status] resolves to
    [{path: f1.path, status: fileStatus(f1)}; ...]: one entry per file, the
    entry at each position made from the file at that position (its own
    path, its own classification), in the order of the scan.  Both the copy
    of [src/index.js] and that of [unnamed/part_000] do so. *)
Theorem status_report (repo : Repository) (statuses : list StatusFile) :
  getStatus repo = Fulfilled statuses ->
  exists entries : list StatusEntry,
    IndexJs1.status repo = Fulfilled entries
    /\ Part000.status repo = Fulfilled entries
    /\ entries
       = map (fun f => {| Entry.path := path f;
                          Entry.status := IndexJs1.fileStatus f |}) statuses
    /\ length entries = length statuses
    /\ forall (i : nat) (f : StatusFile),
         statuses !! i = Some f ->
         entries !! i = Some {| Entry.path := path f;
                                Entry.status := IndexJs1.fileStatus f |}.
Proof.
  intros Hscan. eexists. split; [|split; [|split; [reflexivity|split]]].
  - unfold IndexJs1.status. rewrite Hscan. reflexivity.
  - unfold Part000.status. rewrite Hscan. reflexivity.
  - apply length_map.
  - intros i f Hi.
    change (map ?g statuses) with (g <$> statuses).
    by rewrite list_lookup_fmap, Hi.
Qed.

Lemma status_report_witness :
  IndexJs1.status
    {| getStatus := Fulfilled
         [ {| path := "b.js"; isNew := false; isModified := true;
              isRenamed := false; isIgnored := false; isDeleted := false;
              isConflicted := false; inIndex := false |};
           {| path := "a.js"; isNew := true; isModified := false;
              isRenamed := false; isIgnored := false; isDeleted := false;
              isConflicted := false; inIndex := true |} ] |}
  = Fulfilled [ {| Entry.path := "b.js"; Entry.status := "M" |};
                {| Entry.path := "a.js"; Entry.status := "AI" |} ].
Proof.
  destruct (status_report
              {| getStatus := Fulfilled
                   [ {| path := "b.js"; isNew := false; isModified := true;
                        isRenamed := false; isIgnored := false;
                        isDeleted := false; isConflicted := false;
                        inIndex := false |};
                     {| path := "a.js"; isNew := true; isModified := false;
                        isRenamed := false; isIgnored := false;
                        isDeleted := false; isConflicted := false;
                        inIndex := true |} ] |}
              _ eq_refl) as (entries & H1 & _ & H3 & _).
  rewrite H1, H3. reflexivity.
Defined.

(** ** More on the classifier *)

(** A code character is in the result exactly when its flag holds. *)
Lemma code_in_fileStatus (f : flag) (file : StatusFile) :
  code f ∈ chars (IndexJs1.fileStatus file) <-> test f file = true.
Proof.
  rewrite fileStatus_chars.
  change (map code (true_flags file)) with (code <$> true_flags file).
  rewrite list_elem_of_fmap. split.
  - intros (g & Hg & Hin). apply code_inj in Hg. subst g.
    apply list_elem_of_In, filter_In in Hin. tauto.
  - intros Ht. exists f. split; [reflexivity|].
    apply list_elem_of_In, filter_In. split; [|exact Ht].
    destruct f; cbn; tauto.
Qed.

(** No result holds a blank. *)
Lemma fileStatus_no_blank (file : StatusFile) :
  " "%char ∉ chars (IndexJs1.fileStatus file).
Proof.
  rewrite fileStatus_chars.
  change (map code (true_flags file)) with (code <$> true_flags file).
  rewrite list_elem_of_fmap. intros (g & Hg & _). by destruct g.
Qed.

(** The character of a flag occurs once in the result when the flag
    holds and not at all otherwise: the result can be read back flag by
    flag. *)
Theorem fileStatus_code_count (f : flag) (file : StatusFile) :
  count_occ ascii_dec (chars (IndexJs1.fileStatus file)) (code f)
  = if test f file then 1 else 0.
Proof.
  destruct file as [p [] [] [] [] [] [] []], f; reflexivity.
Qed.

(** Two status files get the same string exactly when they agree on all
    seven flags: the string loses nothing of the flags, and nothing else
    (the path) enters it. *)
Theorem fileStatus_same_iff (d1 d2 : StatusFile) :
  IndexJs1.fileStatus d1 = IndexJs1.fileStatus d2
  <-> forall f : flag, test f d1 = test f d2.
Proof.
  split; [|apply fileStatus_flags_only].
  intros E f.
  pose proof (code_in_fileStatus f d1) as H1.
  pose proof (code_in_fileStatus f d2) as H2.
  rewrite E in H1.
  destruct (test f d1), (test f d2); try reflexivity.
  - symmetry. apply H2, H1. reflexivity.
  - apply H1, H2. reflexivity.
Qed.

(** ** More on the report *)

Lemma status_entry_of_descriptor {S : Type} (o : Js.FileObject S)
    (d : StatusFile) :
  represents_file o d ->
  forall st : S,
    Js.bind (Js.path o)
      (fun p => Js.bind (Js.fileStatus o)
         (fun s => Js.ret {| Entry.path := p; Entry.status := s |})) st
    = (Js.Normal {| Entry.path := path d;
                    Entry.status := IndexJs1.fileStatus d |}, st).
Proof.
  intros [Hp Hf] st. unfold Js.bind.
  by rewrite Hp, (fileStatus_of_descriptor o d Hf).
Qed.

Lemma array_map_entries {S : Type} (os : list (Js.FileObject S))
    (ds : list StatusFile) :
  Forall2 represents_file os ds ->
  forall st : S,
    Js.array_map
      (fun file =>
         Js.bind (Js.path file)
           (fun p => Js.bind (Js.fileStatus file)
              (fun s => Js.ret {| Entry.path := p; Entry.status := s |})))
      os st
    = (Js.Normal
         (map (fun f => {| Entry.path := path f;
                           Entry.status := IndexJs1.fileStatus f |}) ds),
       st).
Proof.
  induction 1 as [|o d os ds Hod _ IH]; intros st; [reflexivity|].
  cbn [Js.array_map]. unfold Js.bind at 1.
  rewrite (status_entry_of_descriptor o d Hod).
  unfold Js.bind at 1. by rewrite IH.
Qed.

(** Over objects whose methods may throw: when the files of the scan carry
    descriptors (their [path] and predicates return without throwing and
    without changing the state), [status] rejects exactly when
    [repo.getStatus()] rejects, with the same reason and in the same state,
    and on a fulfilled scan it fulfils with the entries of the descriptors.
    Classifying such files adds no failure. *)
Theorem status_rejects_iff {S : Type} (repo : Js.RepoObject S) (st : S) :
  (forall os st', Js.getStatus repo st = (Js.Normal os, st') ->
                  exists ds, Forall2 represents_file os ds) ->
  (forall reason st',
     Js.status repo st = (Js.Throw reason, st')
     <-> Js.getStatus repo st = (Js.Throw reason, st'))
  /\ (forall os ds st',
        Js.getStatus repo st = (Js.Normal os, st') ->
        Forall2 represents_file os ds ->
        Js.status repo st
        = (Js.Normal
             (map (fun f => {| Entry.path := path f;
                               Entry.status := IndexJs1.fileStatus f |}) ds),
           st')).
Proof.
  intros Hfiles.
  assert (Hok : forall os ds st',
            Js.getStatus repo st = (Js.Normal os, st') ->
            Forall2 represents_file os ds ->
            Js.status repo st
            = (Js.Normal
                 (map (fun f => {| Entry.path := path f;
                                   Entry.status := IndexJs1.fileStatus f |})
                      ds), st')).
  { intros os ds st' Hscan Hrep. unfold Js.status, Js.bind at 1.
    rewrite Hscan. by apply array_map_entries. }
  split; [|exact Hok].
  intros reason st'.
  destruct (Js.getStatus repo st) as [[os|r] st0] eqn:Hscan.
  - destruct (Hfiles os st0 eq_refl) as [ds Hrep].
    rewrite (Hok os ds st0 eq_refl Hrep). split; discriminate.
  - unfold Js.status, Js.bind at 1. rewrite Hscan. cbn.
    split; intros [= -> ->]; reflexivity.
Qed.

Lemma status_rejects_iff_witness :
  Js.status
    {| Js.getStatus := Js.ret
         [ object_of
             {| path := "b.js"; isNew := false; isModified := true;
                isRenamed := false; isIgnored := false; isDeleted := false;
                isConflicted := false; inIndex := false |};
           bits_object
             {| path := "a.js"; isNew := true; isModified := false;
                isRenamed := false; isIgnored := false; isDeleted := false;
                isConflicted := false; inIndex := true |} ] |}
    ["ready"]
  = (Js.Normal [ {| Entry.path := "b.js"; Entry.status := "M" |};
                 {| Entry.path := "a.js"; Entry.status := "AI" |} ],
     ["ready"]).
Proof.
  match goal with
  | |- Js.status ?repo ?st = _ =>
      assert (Hfiles : forall os st',
                Js.getStatus repo st = (Js.Normal os, st') ->
                exists ds, Forall2 represents_file os ds);
      [| destruct (status_rejects_iff repo st Hfiles) as [_ Hok] ]
  end.
  - intros os st' [= <- <-]. eexists [_; _].
    repeat constructor;
      [apply object_of_represents | apply bits_object_represents].
  - apply (Hok _
             [ {| path := "b.js"; isNew := false; isModified := true;
                  isRenamed := false; isIgnored := false; isDeleted := false;
                  isConflicted := false; inIndex := false |};
               {| path := "a.js"; isNew := true; isModified := false;
                  isRenamed := false; isIgnored := false; isDeleted := false;
                  isConflicted := false; inIndex := true |} ]
             _ eq_refl).
    repeat constructor;
      [apply object_of_represents | apply bits_object_represents].
Defined.

(** A file object whose predicate throws makes [status] reject although
    the scan fulfilled, and a rejected scan is passed on before any file is
    looked at. *)
Example status_rejects_on_throwing_file :
  Js.status
    {| Js.getStatus := Js.ret
         [ throwing_object
             {| path := "a.js"; isNew := true; isModified := false;
                isRenamed := false; isIgnored := false; isDeleted := false;
                isConflicted := false; inIndex := true |} ] |}
    ["ready"]
  = (Js.Throw "isDeleted failed", ["ready"]).
Proof. reflexivity. Qed.

(** ** The print loop *)







(** A path with a line feed in it spreads the text of its one call over
    two lines of the terminal. *)
Example status_line_with_line_feed :
  status_line
    {| Entry.path := String "a" (String "010" "b"); Entry.status := "M" |}
  = String "M" (String " " (String "a" (String "010" "b"))).
Proof. reflexivity. Qed.


(** Splitting at the first blank: when neither head holds a blank, two
    equal lines have equal heads and equal tails. *)
Lemma blank_separates (s1 s2 p1 p2 : string) :
  " "%char ∉ chars s1 -> " "%char ∉ chars s2 ->
  s1 +:+ " " +:+ p1 = s2 +:+ " " +:+ p2 -> s1 = s2 /\ p1 = p2.
Proof.
  revert s2. induction s1 as [|a s1 IH]; intros [|b s2] H1 H2 E;
    unfold String.append in E; fold String.append in E.
  - by injection E as ->.
  - injection E as <- _. exfalso. apply H2. left.
  - injection E as -> _. exfalso. apply H1. left.
  - injection E as <- E.
    destruct (IH s2) as [-> ->]; [| |exact E|done].
    + intros Hin. apply H1. by right.
    + intros Hin. apply H2. by right.
Qed.

(** A printed line determines the status code and the path it was made
    from, also when the path holds blanks: no two different results of the
    scan print the same line. *)
Theorem status_line_injective (f1 f2 : StatusFile) :
  status_line {| Entry.path := path f1;
                 Entry.status := IndexJs1.fileStatus f1 |}
  = status_line {| Entry.path := path f2;
                   Entry.status := IndexJs1.fileStatus f2 |} ->
  IndexJs1.fileStatus f1 = IndexJs1.fileStatus f2 /\ path f1 = path f2.
Proof.
  unfold status_line. cbn. intros E.
  apply (blank_separates _ _ _ _ (fileStatus_no_blank f1) (fileStatus_no_blank f2) E).
Qed.

Lemma status_line_injective_witness :
  IndexJs1.fileStatus
    {| path := "my notes.txt"; isNew := false; isModified := true;
       isRenamed := false; isIgnored := false; isDeleted := false;
       isConflicted := false; inIndex := false |} = "M".
Proof.
  apply (status_line_injective
           {| path := "my notes.txt"; isNew := false; isModified := true;
              isRenamed := false; isIgnored := false; isDeleted := false;
              isConflicted := false; inIndex := false |}
           {| path := "my notes.txt"; isNew := false; isModified := true;
              isRenamed := false; isIgnored := false; isDeleted := false;
              isConflicted := false; inIndex := false |}).
  reflexivity.
Defined.

(** A printed line starts with a blank exactly when the file has no flag
    set: its status code is then empty, and the blank of the template comes
    first. *)
Theorem status_line_blank_iff (file : StatusFile) :
  String.get 0
    (status_line {| Entry.path := path file;
                    Entry.status := IndexJs1.fileStatus file |})
  = Some " "%char
  <-> forall f : flag, test f file = false.
Proof.
  destruct file as [p a m r i d c x]. split.
  - intros H f.
    destruct a, m, r, i, d, c, x; try (vm_compute in H; discriminate H).
    by destruct f.
  - intros H.
    pose proof (H IsNew) as Ha. pose proof (H IsModified) as Hm.
    pose proof (H IsRenamed) as Hr. pose proof (H IsIgnored) as Hi.
    pose proof (H IsDeleted) as Hd. pose proof (H IsConflicted) as Hc.
    pose proof (H InIndex) as Hx. cbn in Ha, Hm, Hr, Hi, Hd, Hc, Hx.
    subst. reflexivity.
Qed.

(** For entries that do not come from the classifier the line is
    ambiguous: the status alone decides nothing about blanks. *)
Example status_line_ambiguous :
  status_line {| Entry.path := "b c"; Entry.status := "A" |}
  = status_line {| Entry.path := "c"; Entry.status := "A b" |}.
Proof. reflexivity. Qed.

(** ** Tags, branches and clones *)

Section Nodegit.
Context `{E : Engine}.

(** [createTag] treats a commit given as a string like the object id the
    string parses to. *)
Theorem createTag_string_as_oid (repo : Repo) (hex : string) (o : Oid)
    (tagName tagMessage : string) (st : state) :
  Oid_fromString hex = Fulfilled o ->
  createTag repo (inl hex) tagName tagMessage st
  = createTag repo (inr o) tagName tagMessage st.
Proof. intros H. unfold createTag, oid_or_commit. by rewrite H. Qed.


(** A commit string the engine cannot parse makes every function that
    takes one reject with the parser's error before the engine is asked
    for anything: the state is left as it was, and nothing is printed. *)
Theorem unparsable_commit_rejected (repo : Repo) (hex reason : string)
    (name message : string) (st : state) :
  Oid_fromString hex = Rejected reason ->
  createTag repo (inl hex) name message st = (Rejected reason, st)
  /\ Tags2.createTag repo hex name message st = (Rejected reason, st)
  /\ createBranch repo name (inl hex) st = (Rejected reason, st).
Proof.
  intros H. unfold createTag, Tags2.createTag, createBranch, oid_or_commit.
  by rewrite H.
Qed.

(** The later [createTag] extends the earlier one: on a commit given as a
    string the two do the same, whether the string parses or not. *)
Theorem createTag_versions_agree (repo : Repo) (hex : string)
    (tagName tagMessage : string) (st : state) :
  Tags2.createTag repo hex tagName tagMessage st
  = createTag repo (inl hex) tagName tagMessage st.
Proof.
  unfold createTag, Tags2.createTag, oid_or_commit.
  by destruct (Oid_fromString hex).
Qed.

(** [createBranch] treats a commit given as a string like the object id
    the string parses to, and it never writes to the console, whatever the
    commit it is given and however the call ends. *)
Theorem createBranch_string_as_oid (repo : Repo) (name : string) (st : state) :
  (forall (hex : string) (o : Oid),
     Oid_fromString hex = Fulfilled o ->
     createBranch repo name (inl hex) st = createBranch repo name (inr o) st)
  /\ (forall commit : string + Oid,
        console (snd (createBranch repo name commit st)) = console st).
Proof.
  split.
  - intros hex o H. unfold createBranch, oid_or_commit. by rewrite H.
  - intros commit. unfold createBranch.
    destruct (oid_or_commit commit) as [target|r]; [|reflexivity].
    by destruct (repo_createBranch repo name target 0%Z (world st)).
Qed.

(** [cloneRepo] hands the engine a credentials callback exactly when both
    the user name and the password are given and not empty; an empty
    string counts as not given.  The callback yields the plain pair of the
    two, and the certificate check accepts whatever it is shown. *)
Theorem cloneRepo_credentials (url path : string)
    (username password : option string) (st : state) :
  exists opts : CloneOptions Progress,
    cloneRepo url path username password st
    = (let '(repo, (w, out)) :=
         Clone url path opts (world st, console st) in
       (repo, {| world := w; console := out |}))
    /\ (credentials (callbacks (fetchOpts opts)) = None
        <-> username = None \/ username = Some ""
            \/ password = None \/ password = Some "")
    /\ (forall c : unit -> Cred,
          credentials (callbacks (fetchOpts opts)) = Some c ->
          c tt = userpassPlaintextNew username password)
    /\ certificateCheck (callbacks (fetchOpts opts)) tt = 0%Z.
Proof.
  exists (cloneRepo_options username password).
  split; [reflexivity|]. cbn. split; [|split; [|reflexivity]].
  - destruct username as [u|], password as [p|]; cbn;
      try (split; [tauto | reflexivity]).
    + destruct (String.eqb_spec u ""), (String.eqb_spec p ""); subst; cbn;
        split; try tauto; try discriminate.
      intros [H|[H|[H|H]]]; congruence.
    + destruct (String.eqb_spec u ""); cbn; split; tauto.
  - intros c. destruct (truthy username && truthy password); [|discriminate].
    by intros [= <-].
Qed.

End Nodegit.

Lemma createTag_string_as_oid_witness :
  @createTag list_engine tt (inl "0123456789abcdef0123456789abcdef01234567")
    "v1.0" "first release" (@Build_state list_engine [] [])
  = @createTag list_engine tt (inr "0123456789abcdef0123456789abcdef01234567")
      "v1.0" "first release" (@Build_state list_engine [] []).
Proof.
  apply (@createTag_string_as_oid list_engine). reflexivity.
Defined.

Lemma unparsable_commit_rejected_witness :
  @createTag list_engine tt (inl "HEAD") "v1.0" "first release"
    (@Build_state list_engine [("v0.9", "0123")] ["ready"])
  = (Rejected "unable to parse OID",
     @Build_state list_engine [("v0.9", "0123")] ["ready"]).
Proof.
  apply (@unparsable_commit_rejected list_engine). reflexivity.
Defined.

Lemma createBranch_string_as_oid_witness :
  @createBranch list_engine tt "mybranch"
    (inl "0123456789abcdef0123456789abcdef01234567")
    (@Build_state list_engine [] ["ready"])
  = @createBranch list_engine tt "mybranch"
      (inr "0123456789abcdef0123456789abcdef01234567")
      (@Build_state list_engine [] ["ready"]).
Proof.
  apply (proj1 (@createBranch_string_as_oid list_engine tt "mybranch"
                  (@Build_state list_engine [] ["ready"]))).
  reflexivity.
Defined.

Example createTag_on_list_engine :
  @createTag list_engine tt (inl "0123456789abcdef0123456789abcdef01234567")
    "v1.0" "first release" (@Build_state list_engine [] ["ready"])
  = (Fulfilled tt,
     @Build_state list_engine
       [("v1.0", "0123456789abcdef0123456789abcdef01234567")]
       ["ready"; "TAG: v1.0"]).
Proof. reflexivity. Qed.

Example cloneRepo_without_password :
  fst (@cloneRepo list_engine "https://github.com/kling-igor/lua-stack"
         "/tmp/lua-stack" (Some "klingigor@gmail.com") None
         (@Build_state list_engine [] []))
  = Rejected "authentication required".
Proof. reflexivity. Qed.
